(** * Boot ROM chain of trust: [capa_a_bootloader/bootloader.c]

    A shallow embedding of the first-stage boot authority and the
    properties of its boot sequence: key derivation, payload acquisition,
    signature gate, hand-off to stage-0 or containment in safe mode.

    The C functions that terminate are state transformers on a byte
    memory.  [boot_rom_entry] is a small-step machine over its program
    points, because one of its branches ([enter_safe_mode]) never
    returns. *)

From Stdlib Require Import ZArith List Bool Lia.
Import ListNotations.
Local Open Scope Z_scope.

(** ** Memory

    The objects the boot ROM touches are three disjoint blocks, addressed
    by byte offset:
    - [Stack_key]: the local array [device_private_key] of
      [boot_rom_entry] (offset 0 is [device_private_key[0]]);
    - [Ram]: the RAM reached through absolute addresses (the offset is the
      address, [genome_buffer] is offset [0x20000000]);
    - [Rom_key]: the constant array [GENOME_SIGNATURE_KEY].

    As in C's object model, an access through a pointer into one object
    never reaches another object: the local array is not part of the
    RAM named by absolute address.  The memory at entry is arbitrary
    (the local array is uninitialised, the RAM holds what it held). *)

Inductive block : Type := Stack_key | Ram | Rom_key.

Definition block_eqb (a b : block) : bool :=
  match a, b with
  | Stack_key, Stack_key | Ram, Ram | Rom_key, Rom_key => true
  | _, _ => false
  end.

(** A [uint8_t*]: a block and a byte offset into it. *)
Definition ptr : Type := (block * Z)%type.

(** [p + i] and [p[i]] address arithmetic. *)
Definition ptr_add (p : ptr) (i : Z) : ptr := (fst p, snd p + i).

Definition ptr_eqb (p q : ptr) : bool :=
  block_eqb (fst p) (fst q) && (snd p =? snd q).

(** Every cell holds one [uint8_t], kept as a [Z]. *)
Definition mem : Type := ptr -> Z.

Definition load (m : mem) (p : ptr) : Z := m p.

Definition store (m : mem) (p : ptr) (v : Z) : mem :=
  fun q => if ptr_eqb q p then v else m q.

(** ** Integer types *)

(** [(uint8_t) x]: the value modulo 2^8. *)
Definition uint8_t (x : Z) : Z := x mod 2 ^ 8.

Section Platform.

(** Width in bits of [size_t]; it comes from [<stddef.h>], which is the
    platform's, so it is a parameter here. *)
Variable size_bits : Z.

(** [(size_t) x]: the value modulo 2^size_bits.  Arithmetic on [size_t]
    operands is done in [Z] and wrapped with it. *)
Definition size_t (x : Z) : Z := x mod 2 ^ size_bits.

(** ** Loops

    [for (size_t i = 0; i < buffer_size; ++i) body] where the body
    changes neither [i] nor [buffer_size]: the body runs once for each
    [i] from 0 up to [buffer_size - 1].  [for_iter k i] runs the [k]
    iterations that start at counter value [i].  The counter stays
    below [buffer_size], itself a [size_t], so [++i] never wraps. *)
Fixpoint for_iter (k : nat) (i : Z) (body : Z -> mem -> mem) (m : mem)
  : mem :=
  match k with
  | O => m
  | S k' => for_iter k' (i + 1) body (body i m)
  end.

Definition for_from (i buffer_size : Z) (body : Z -> mem -> mem) (m : mem)
  : mem :=
  for_iter (Z.to_nat (buffer_size - i)) i body m.

Definition for_size (buffer_size : Z) (body : Z -> mem -> mem) (m : mem)
  : mem :=
  for_from 0 buffer_size body m.

(** ** Hardware functions (placeholders) *)

(** [void puf_init()]: empty body. *)
Definition puf_init (m : mem) : mem := m.

(** [void puf_derive_key(uint8_t* key_buffer, size_t buffer_size)]:
    [key_buffer[i] = (uint8_t)(i + 0xAB)], the sum being a [size_t]. *)
Definition puf_derive_key (m : mem) (key_buffer : ptr) (buffer_size : Z)
  : mem :=
  for_size buffer_size
    (fun i m' => store m' (ptr_add key_buffer i) (uint8_t (size_t (i + 0xAB))))
    m.

(** [void download_genome(uint8_t* genome_buffer, size_t buffer_size)]:
    [genome_buffer[i] = (uint8_t)(i % 256)]. *)
Definition download_genome (m : mem) (genome_buffer : ptr) (buffer_size : Z)
  : mem :=
  for_size buffer_size
    (fun i m' => store m' (ptr_add genome_buffer i) (uint8_t (i mod 256)))
    m.

(** [bool ed25519_verify(const uint8_t* data, size_t data_size,
    const uint8_t* signature_key)]: [return true;]. *)
Definition ed25519_verify (m : mem) (data : ptr) (data_size : Z)
           (signature_key : ptr) : bool :=
  true.

(** [void execute_stage0(const uint8_t* genome_buffer)]: empty body. *)
Definition execute_stage0 (m : mem) (genome_buffer : ptr) : mem := m.

(** ** Constants *)

Definition GENOME_MAX_SIZE : Z := 128 * 1024.
Definition PRIVATE_KEY_SIZE : Z := 32.

(** [const uint8_t GENOME_SIGNATURE_KEY[32]], as the pointer the array
    decays to. *)
Definition GENOME_SIGNATURE_KEY : ptr := (Rom_key, 0).

(** [uint8_t device_private_key[PRIVATE_KEY_SIZE]], local to
    [boot_rom_entry]; [sizeof] of it is [PRIVATE_KEY_SIZE]. *)
Definition device_private_key : ptr := (Stack_key, 0).
Definition sizeof_device_private_key : Z := PRIVATE_KEY_SIZE * 1.

(** [uint8_t* genome_buffer = (uint8_t* )0x20000000]. *)
Definition genome_buffer : ptr := (Ram, 0x20000000).

(** ** The boot sequence *)

(** Calls made by [boot_rom_entry], in the order they happen, with
    their arguments (and the verdict for the verification). *)
Inductive event : Type :=
| Call_puf_init
| Call_puf_derive_key (key_buffer : ptr) (buffer_size : Z)
| Call_download_genome (genome_buffer : ptr) (buffer_size : Z)
| Call_ed25519_verify (data : ptr) (data_size : Z) (signature_key : ptr)
                      (verdict : bool)
| Call_execute_stage0 (genome_buffer : ptr)
| Call_enter_safe_mode.

(** Program points of [boot_rom_entry]:
    - [Init]: entry, before [puf_init] and [puf_derive_key];
    - [KeyDerived]: before the call of [download_genome];
    - [PayloadAcquired]: before the call of [ed25519_verify];
    - [Verified]: in the then-branch, before [execute_stage0];
    - [Executing]: [execute_stage0] has been entered;
    - [SafeMode]: inside [enter_safe_mode], at [while(1);];
    - [Returned]: [boot_rom_entry] has returned. *)
Inductive BootState : Type :=
| Init | KeyDerived | PayloadAcquired | Verified | Executing | SafeMode
| Returned.

Record config : Type := mkConfig
  { pc : BootState;
    memory : mem;
    trace : list event }.

Section Orchestrator.

(** The two collaborators the boot decision depends on: the acquirer
    called at line 76 and the verification primitive called at line
    79.  The source binds them to [download_genome] and
    [ed25519_verify] (see [boot_rom_entry] below). *)
Variable download : mem -> ptr -> Z -> mem.
Variable verify : mem -> ptr -> Z -> ptr -> bool.

(** [void enter_safe_mode()]: one turn of [while(1);].  The loop has
    an empty body and a constant condition: the configuration is
    unchanged and control stays in the loop. *)
Definition enter_safe_mode (c : config) : config := c.

(** One step of [boot_rom_entry].  [None]: nothing left to run. *)
Definition boot_step (c : config) : option config :=
  match pc c with
  | Init =>
      let m1 := puf_init (memory c) in
      let m2 := puf_derive_key m1 device_private_key
                  (size_t sizeof_device_private_key) in
      Some (mkConfig KeyDerived m2
              (trace c ++
               [Call_puf_init;
                Call_puf_derive_key device_private_key
                  (size_t sizeof_device_private_key)]))
  | KeyDerived =>
      let m3 := download (memory c) genome_buffer
                  (size_t GENOME_MAX_SIZE) in
      Some (mkConfig PayloadAcquired m3
              (trace c ++
               [Call_download_genome genome_buffer
                  (size_t GENOME_MAX_SIZE)]))
  | PayloadAcquired =>
      let v := verify (memory c) genome_buffer (size_t GENOME_MAX_SIZE)
                 GENOME_SIGNATURE_KEY in
      let t := trace c ++
               [Call_ed25519_verify genome_buffer (size_t GENOME_MAX_SIZE)
                  GENOME_SIGNATURE_KEY v] in
      if v then Some (mkConfig Verified (memory c) t)
      else Some (mkConfig SafeMode (memory c) (t ++ [Call_enter_safe_mode]))
  | Verified =>
      Some (mkConfig Executing (memory c)
              (trace c ++ [Call_execute_stage0 genome_buffer]))
  | Executing =>
      Some (mkConfig Returned (execute_stage0 (memory c) genome_buffer)
              (trace c))
  | SafeMode => Some (enter_safe_mode c)
  | Returned => None
  end.

(** [n] steps, or fewer when the function returns before. *)
Fixpoint boot_run (n : nat) (c : config) : config :=
  match n with
  | O => c
  | S n' =>
      match boot_step c with
      | Some c' => boot_run n' c'
      | None => c
      end
  end.

End Orchestrator.

(** Entry of the boot ROM on the memory [m]. *)
Definition boot_entry (m : mem) : config := mkConfig Init m [].

(** [void boot_rom_entry()]: the configuration [n] steps after entry,
    with the collaborators the source calls. *)
Definition boot_rom_entry (n : nat) (m : mem) : config :=
  boot_run download_genome ed25519_verify n (boot_entry m).

End Platform.

(** ** Sample inputs

    A memory of zero bytes (in particular [GENOME_SIGNATURE_KEY] is its
    initialiser [{0}]), a memory of [0xFF] bytes, and two verification
    primitives that read the buffer: the first accepts a payload whose
    first byte equals the first key byte, the second one whose second
    byte does. *)

Definition zero_mem : mem := fun _ => 0.
Definition ff_mem : mem := fun _ => 0xFF.

Definition verify_byte0 (m : mem) (data : ptr) (data_size : Z)
           (signature_key : ptr) : bool :=
  load m data =? load m signature_key.

Definition verify_byte1 (m : mem) (data : ptr) (data_size : Z)
           (signature_key : ptr) : bool :=
  load m (ptr_add data 1) =? load m signature_key.

(** The verdict the primitive [verify] gives in the run that starts on
    [m]: its result on the memory of the [PayloadAcquired] point, two
    steps after entry, with the arguments of the call at line 79. *)
Definition boot_verdict (size_bits : Z) (download : mem -> ptr -> Z -> mem)
           (verify : mem -> ptr -> Z -> ptr -> bool) (m : mem) : bool :=
  verify (memory (boot_run size_bits download verify 2 (boot_entry m)))
    genome_buffer (size_t size_bits GENOME_MAX_SIZE) GENOME_SIGNATURE_KEY.

(** The [n] bytes at [p], [p + 1], ... *)
Definition read_bytes (m : mem) (p : ptr) (n : nat) : list Z :=
  map (fun i => load m (ptr_add p (Z.of_nat i))) (seq 0 n).

(** The calls recorded in a trace. *)
Definition is_execute_stage0 (e : event) : bool :=
  match e with Call_execute_stage0 _ => true | _ => false end.

Definition is_enter_safe_mode (e : event) : bool :=
  match e with Call_enter_safe_mode => true | _ => false end.

(** [data_size] of the verification calls of a trace, oldest first. *)
Fixpoint verify_lengths (t : list event) : list Z :=
  match t with
  | [] => []
  | Call_ed25519_verify _ n _ _ :: t' => n :: verify_lengths t'
  | _ :: t' => verify_lengths t'
  end.

(** [q] is one of the cells [buf[0]], ..., [buf[n - 1]]. *)
Definition in_buffer (buf : ptr) (n : Z) (q : ptr) : bool :=
  block_eqb (fst q) (fst buf) && (snd buf <=? snd q) && (snd q <? snd buf + n).

(** How far along [boot_rom_entry] a program point is; the two points
    without a way out, [SafeMode] and [Returned], come last. *)
Definition boot_rank (s : BootState) : nat :=
  match s with
  | Init => 0
  | KeyDerived => 1
  | PayloadAcquired => 2
  | Verified => 3
  | Executing => 4
  | SafeMode => 5
  | Returned => 5
  end.

(** The pointers a call is given. *)
Definition event_ptrs (e : event) : list ptr :=
  match e with
  | Call_puf_init => []
  | Call_puf_derive_key key_buffer _ => [key_buffer]
  | Call_download_genome buf _ => [buf]
  | Call_ed25519_verify data _ signature_key _ => [data; signature_key]
  | Call_execute_stage0 buf => [buf]
  | Call_enter_safe_mode => []
  end.

(** * Properties *)

(** ** Memory *)

Lemma block_eqb_eq (a b : block) : block_eqb a b = true <-> a = b.
Proof. destruct a, b; simpl; split; congruence. Qed.

Lemma ptr_eqb_eq (p q : ptr) : ptr_eqb p q = true <-> p = q.
Proof.
  destruct p as [b o], q as [b' o']. unfold ptr_eqb. simpl.
  rewrite andb_true_iff, block_eqb_eq, Z.eqb_eq.
  split; [intros [-> ->]; reflexivity | intros E; inversion E; auto].
Qed.

Lemma load_store_same (m : mem) (p : ptr) (v : Z) : load (store m p v) p = v.
Proof.
  unfold load, store.
  destruct (ptr_eqb p p) eqn:E; [reflexivity|].
  assert (ptr_eqb p p = true) by (apply ptr_eqb_eq; reflexivity). congruence.
Qed.

Lemma load_store_other (m : mem) (p q : ptr) (v : Z) :
  q <> p -> load (store m p v) q = load m q.
Proof.
  intros N. unfold load, store.
  destruct (ptr_eqb q p) eqn:E; [|reflexivity].
  apply ptr_eqb_eq in E. contradiction.
Qed.

Lemma ptr_add_inj (p : ptr) (i j : Z) : ptr_add p i = ptr_add p j -> i = j.
Proof. unfold ptr_add. intros E. inversion E. lia. Qed.

(** ** Loops that fill a buffer *)

Section Fill.

Variable base : ptr.
Variable f : Z -> Z.

Let body : Z -> mem -> mem := fun i m' => store m' (ptr_add base i) (f i).

Lemma for_iter_outside (k : nat) : forall (i : Z) (m : mem) (q : ptr),
  (forall j, i <= j < i + Z.of_nat k -> q <> ptr_add base j) ->
  load (for_iter k i body m) q = load m q.
Proof.
  induction k as [|k IH]; intros i m q Hq; simpl; [reflexivity|].
  rewrite IH by (intros j Hj; apply Hq; lia).
  unfold body. apply load_store_other. apply Hq. lia.
Qed.

Lemma for_iter_inside (k : nat) : forall (i : Z) (m : mem) (j : Z),
  i <= j < i + Z.of_nat k ->
  load (for_iter k i body m) (ptr_add base j) = f j.
Proof.
  induction k as [|k IH]; intros i m j Hj; simpl; [lia|].
  destruct (Z.eq_dec j i) as [->|Hne].
  - rewrite for_iter_outside.
    + unfold body. apply load_store_same.
    + intros j Hj' E. apply ptr_add_inj in E. lia.
  - apply IH. lia.
Qed.

Lemma for_size_inside (n : Z) (m : mem) (j : Z) :
  0 <= j < n -> load (for_size n body m) (ptr_add base j) = f j.
Proof.
  intros Hj. unfold for_size, for_from. apply for_iter_inside. lia.
Qed.

Lemma for_size_outside (n : Z) (m : mem) (q : ptr) :
  (forall j, 0 <= j < n -> q <> ptr_add base j) ->
  load (for_size n body m) q = load m q.
Proof.
  intros Hq. unfold for_size, for_from. apply for_iter_outside.
  intros j Hj. apply Hq. lia.
Qed.

End Fill.

(** The loop construct obeys the equation of the C loop: test
    [i < buffer_size], run the body, increment, repeat. *)
Lemma for_from_unfold (i n : Z) (body : Z -> mem -> mem) (m : mem) :
  for_from i n body m =
  if i <? n then for_from (i + 1) n body (body i m) else m.
Proof.
  unfold for_from. destruct (Z.ltb_spec i n) as [H|H].
  - replace (Z.to_nat (n - i)) with (S (Z.to_nat (n - (i + 1)))) by lia.
    reflexivity.
  - replace (Z.to_nat (n - i)) with O by lia. reflexivity.
Qed.

(** ** Control flow of the boot sequence *)

Ltac boot_eval :=
  cbn [boot_run boot_step boot_entry enter_safe_mode ed25519_verify
       pc memory trace app].

Ltac boot_eval_in H :=
  cbn [boot_run boot_step boot_entry enter_safe_mode ed25519_verify
       pc memory trace app] in H.

(** Case analysis on the number of steps of a run from entry, the verdict
    being [H]. *)
Ltac boot_cases_rec k n H :=
  lazymatch k with
  | O => idtac
  | S ?k' =>
      let n' := fresh "n" in
      destruct n as [|n']; boot_eval; rewrite ?H; boot_eval;
      [ | boot_cases_rec k' n' H ]
  end.

Ltac boot_cases n H :=
  unfold boot_verdict in H; boot_eval_in H;
  boot_cases_rec 6%nat n H.

(** Case analysis on the number of steps of [boot_rom_entry], whose
    verdict is always true: the run returns at the fifth step. *)
Ltac entry_cases n :=
  unfold boot_rom_entry; boot_cases_rec 6%nat n (eq_refl true).

Section Runs.

Variable size_bits : Z.
Variable download : mem -> ptr -> Z -> mem.
Variable verify : mem -> ptr -> Z -> ptr -> bool.

Let run := boot_run size_bits download verify.

(** A configuration without a next step is final. *)
Lemma boot_run_halted (n : nat) (c : config) :
  boot_step size_bits download verify c = None -> run n c = c.
Proof. intros H. destruct n; simpl; [|rewrite H]; reflexivity. Qed.

Lemma boot_run_add (a b : nat) : forall c : config,
  run (a + b) c = run b (run a c).
Proof.
  induction a as [|a IH]; intros c; simpl; [reflexivity|].
  destruct (boot_step size_bits download verify c) as [c'|] eqn:E.
  - apply IH.
  - symmetry. apply boot_run_halted. exact E.
Qed.

(** The safe-mode loop leaves the whole configuration as it is. *)
Lemma boot_run_SafeMode (n : nat) (c : config) :
  pc c = SafeMode -> run n c = c.
Proof.
  intros H. induction n as [|n IH]; simpl; [reflexivity|].
  unfold boot_step. rewrite H. exact IH.
Qed.

Lemma authentic_run_4 (m : mem) :
  boot_verdict size_bits download verify m = true ->
  pc (run 4 (boot_entry m)) = Executing /\
  In (Call_execute_stage0 genome_buffer) (trace (run 4 (boot_entry m))).
Proof.
  intros H. unfold boot_verdict in H. boot_eval_in H.
  unfold run. boot_eval. rewrite H. boot_eval.
  split; [reflexivity|]. simpl. auto 10.
Qed.

Lemma authentic_run_never_SafeMode (m : mem) (n : nat) :
  boot_verdict size_bits download verify m = true ->
  pc (run n (boot_entry m)) <> SafeMode /\
  ~ In Call_enter_safe_mode (trace (run n (boot_entry m))).
Proof.
  intros H. unfold run. boot_cases n H;
    (split; [discriminate | simpl; intuition discriminate]).
Qed.

Lemma inauthentic_run_from_3 (m : mem) (k : nat) :
  boot_verdict size_bits download verify m = false ->
  (3 <= k)%nat ->
  run k (boot_entry m) = run 3 (boot_entry m) /\
  pc (run 3 (boot_entry m)) = SafeMode /\
  In Call_enter_safe_mode (trace (run 3 (boot_entry m))).
Proof.
  intros H Hk.
  assert (P : pc (run 3 (boot_entry m)) = SafeMode).
  { unfold boot_verdict in H. boot_eval_in H.
    unfold run. boot_eval. rewrite H. reflexivity. }
  split; [|split; [exact P|]].
  - replace k with (3 + (k - 3))%nat by lia.
    rewrite boot_run_add. apply boot_run_SafeMode. exact P.
  - unfold boot_verdict in H. boot_eval_in H.
    unfold run. boot_eval. rewrite H. boot_eval. simpl. auto 10.
Qed.

Lemma inauthentic_run_never_Executing (m : mem) (n : nat) :
  boot_verdict size_bits download verify m = false ->
  pc (run n (boot_entry m)) <> Verified /\
  pc (run n (boot_entry m)) <> Executing /\
  pc (run n (boot_entry m)) <> Returned /\
  existsb is_execute_stage0 (trace (run n (boot_entry m))) = false.
Proof.
  intros H.
  assert (H3 : forall k, (k <= 3)%nat ->
             pc (run k (boot_entry m)) <> Verified /\
             pc (run k (boot_entry m)) <> Executing /\
             pc (run k (boot_entry m)) <> Returned /\
             existsb is_execute_stage0 (trace (run k (boot_entry m)))
             = false).
  { intros k Hk. pose proof H as H'. unfold run.
    unfold boot_verdict in H'. boot_eval_in H'.
    boot_cases_rec 4%nat k H';
      try (repeat split; try discriminate; reflexivity).
    lia. }
  destruct (Nat.le_gt_cases n 3) as [Hn|Hn]; [apply H3; exact Hn|].
  destruct (inauthentic_run_from_3 m n H) as [-> _]; [lia|].
  apply H3. lia.
Qed.

(** The call of [enter_safe_mode] is recorded only by the transition
    into [SafeMode], which a run makes at its third step. *)
Lemma enter_safe_mode_recorded (m : mem) (n : nat) :
  In Call_enter_safe_mode (trace (run n (boot_entry m))) ->
  boot_verdict size_bits download verify m = false /\ (3 <= n)%nat.
Proof.
  intros HIn.
  destruct (boot_verdict size_bits download verify m) eqn:H.
  - exfalso. revert HIn. apply authentic_run_never_SafeMode. exact H.
  - split; [reflexivity|].
    unfold run in HIn. unfold boot_verdict in H. boot_eval_in H.
    do 3 (destruct n as [|n]; [boot_eval_in HIn; simpl in HIn;
                               intuition discriminate|]).
    lia.
Qed.

End Runs.

(** ** Integer conversions *)

Lemma size_t_small (size_bits x : Z) :
  0 <= x < 2 ^ size_bits -> size_t size_bits x = x.
Proof. intros H. unfold size_t. apply Z.mod_small. exact H. Qed.

Lemma size_t_GENOME_MAX_SIZE (size_bits : Z) :
  18 <= size_bits -> size_t size_bits GENOME_MAX_SIZE = GENOME_MAX_SIZE.
Proof.
  intros H. apply size_t_small. unfold GENOME_MAX_SIZE.
  assert (2 ^ 18 <= 2 ^ size_bits) by (apply Z.pow_le_mono_r; lia).
  change (2 ^ 18) with 262144 in *. lia.
Qed.

Lemma size_t_sizeof_device_private_key (size_bits : Z) :
  6 <= size_bits ->
  size_t size_bits sizeof_device_private_key = PRIVATE_KEY_SIZE.
Proof.
  intros H. unfold sizeof_device_private_key. rewrite Z.mul_1_r.
  apply size_t_small. unfold PRIVATE_KEY_SIZE.
  assert (2 ^ 6 <= 2 ^ size_bits) by (apply Z.pow_le_mono_r; lia).
  change (2 ^ 6) with 64 in *. lia.
Qed.

(** Truncating a [size_t] to [uint8_t] forgets the [size_t] wrap-around. *)
Lemma uint8_t_size_t (size_bits x : Z) :
  8 <= size_bits -> uint8_t (size_t size_bits x) = x mod 256.
Proof.
  intros H. unfold uint8_t, size_t. change (2 ^ 8) with 256.
  apply Z.mod_mod_divide. exists (2 ^ (size_bits - 8)).
  change 256 with (2 ^ 8). rewrite <- Z.pow_add_r by lia.
  f_equal. lia.
Qed.

Lemma uint8_t_mod_256 (x : Z) : uint8_t (x mod 256) = x mod 256.
Proof. unfold uint8_t. change (2 ^ 8) with 256. apply Z.mod_mod. lia. Qed.

(** ** Footprint and contents of the two buffer-filling functions *)

Lemma puf_derive_key_inside (size_bits : Z) (m : mem) (key_buffer : ptr)
      (buffer_size i : Z) :
  8 <= size_bits -> 0 <= i < buffer_size ->
  load (puf_derive_key size_bits m key_buffer buffer_size)
       (ptr_add key_buffer i) = (i + 0xAB) mod 256.
Proof.
  intros Hw Hi. unfold puf_derive_key.
  rewrite (for_size_inside key_buffer
             (fun i => uint8_t (size_t size_bits (i + 0xAB)))) by exact Hi.
  apply uint8_t_size_t. exact Hw.
Qed.

Lemma puf_derive_key_outside (size_bits : Z) (m : mem) (key_buffer : ptr)
      (buffer_size : Z) (q : ptr) :
  fst q <> fst key_buffer \/ snd q < snd key_buffer \/
  snd key_buffer + buffer_size <= snd q ->
  load (puf_derive_key size_bits m key_buffer buffer_size) q = load m q.
Proof.
  intros Hq. unfold puf_derive_key.
  apply (for_size_outside key_buffer
           (fun i => uint8_t (size_t size_bits (i + 0xAB)))).
  intros j Hj E. subst q. unfold ptr_add in Hq. simpl in Hq.
  destruct Hq as [Hq|Hq]; [congruence | lia].
Qed.

Lemma download_genome_inside (m : mem) (buf : ptr) (buffer_size i : Z) :
  0 <= i < buffer_size ->
  load (download_genome m buf buffer_size) (ptr_add buf i) = i mod 256.
Proof.
  intros Hi. unfold download_genome.
  rewrite (for_size_inside buf (fun i => uint8_t (i mod 256))) by exact Hi.
  apply uint8_t_mod_256.
Qed.

Lemma download_genome_outside (m : mem) (buf : ptr) (buffer_size : Z)
      (q : ptr) :
  fst q <> fst buf \/ snd q < snd buf \/ snd buf + buffer_size <= snd q ->
  load (download_genome m buf buffer_size) q = load m q.
Proof.
  intros Hq. unfold download_genome.
  apply (for_size_outside buf (fun i => uint8_t (i mod 256))).
  intros j Hj E. subst q. unfold ptr_add in Hq. simpl in Hq.
  destruct Hq as [Hq|Hq]; [congruence | lia].
Qed.

(** ** Invariants of a run *)

Lemma boot_run_invariant (size_bits : Z) (download : mem -> ptr -> Z -> mem)
      (verify : mem -> ptr -> Z -> ptr -> bool) (P : config -> Prop) :
  (forall c c', boot_step size_bits download verify c = Some c' ->
                P c -> P c') ->
  forall (n : nat) (c : config),
    P c -> P (boot_run size_bits download verify n c).
Proof.
  intros Hstep. induction n as [|n IH]; intros c Hc; simpl; [exact Hc|].
  destruct (boot_step size_bits download verify c) as [c'|] eqn:E.
  - apply IH. apply (Hstep c c' E Hc).
  - exact Hc.
Qed.

Lemma verify_lengths_app (t u : list event) :
  verify_lengths (t ++ u) = verify_lengths t ++ verify_lengths u.
Proof.
  induction t as [|e t IH]; simpl; [reflexivity|].
  destruct e; simpl; rewrite IH; reflexivity.
Qed.

(** Whatever the collaborators do, a verification call is given the
    capacity of the buffer as its length. *)
Lemma boot_run_verify_lengths (size_bits : Z)
      (download : mem -> ptr -> Z -> mem)
      (verify : mem -> ptr -> Z -> ptr -> bool) (m : mem) (n : nat) (y : Z) :
  In y (verify_lengths
          (trace (boot_run size_bits download verify n (boot_entry m)))) ->
  y = size_t size_bits GENOME_MAX_SIZE.
Proof.
  revert y.
  apply (boot_run_invariant size_bits download verify
           (fun c => forall y, In y (verify_lengths (trace c)) ->
                               y = size_t size_bits GENOME_MAX_SIZE)).
  - intros c c' Hstep Hc y. unfold boot_step in Hstep.
    destruct (pc c);
      try (destruct (verify _ _ _ _));
      inversion Hstep; subst c'; clear Hstep; cbn [trace];
      rewrite ?verify_lengths_app; simpl; rewrite ?app_nil_r;
      try (apply Hc);
      intros HIn; apply in_app_or in HIn; destruct HIn as [HIn|HIn];
      try (apply Hc; exact HIn);
      simpl in HIn; intuition congruence.
  - simpl. intros y [].
Qed.

(** * The claims *)

(** C1. When the verification primitive returns Authentic (true) on the
    acquired payload and the public key, the boot sequence reaches
    [Executing], having called [execute_stage0] on the buffer it
    verified, and no configuration of the run is in [SafeMode] or has
    called [enter_safe_mode].  This holds for every primitive, every
    acquirer (so every payload) and every initial memory (so every
    key). *)
Theorem authentic_boot_reaches_Executing
        (size_bits : Z) (download : mem -> ptr -> Z -> mem)
        (verify : mem -> ptr -> Z -> ptr -> bool) (m : mem) :
  boot_verdict size_bits download verify m = true ->
  (exists n,
      pc (boot_run size_bits download verify n (boot_entry m)) = Executing /\
      In (Call_execute_stage0 genome_buffer)
         (trace (boot_run size_bits download verify n (boot_entry m)))) /\
  (forall n,
      pc (boot_run size_bits download verify n (boot_entry m)) <> SafeMode /\
      ~ In Call_enter_safe_mode
           (trace (boot_run size_bits download verify n (boot_entry m)))).
Proof.
  intros H. split.
  - exists 4%nat. apply authentic_run_4. exact H.
  - intros n. apply authentic_run_never_SafeMode. exact H.
Qed.

(** C2. When the verification primitive returns Inauthentic (false) on
    the acquired payload and the public key, the boot sequence enters
    [SafeMode] and stays there, and no configuration of the run is in
    [Executing] or has called [execute_stage0]. *)
Theorem inauthentic_boot_reaches_SafeMode
        (size_bits : Z) (download : mem -> ptr -> Z -> mem)
        (verify : mem -> ptr -> Z -> ptr -> bool) (m : mem) :
  boot_verdict size_bits download verify m = false ->
  (exists n, forall k, (n <= k)%nat ->
      pc (boot_run size_bits download verify k (boot_entry m)) = SafeMode /\
      In Call_enter_safe_mode
         (trace (boot_run size_bits download verify k (boot_entry m)))) /\
  (forall n,
      pc (boot_run size_bits download verify n (boot_entry m)) <> Executing /\
      existsb is_execute_stage0
        (trace (boot_run size_bits download verify n (boot_entry m)))
      = false).
Proof.
  intros H. split.
  - exists 3%nat. intros k Hk.
    destruct (inauthentic_run_from_3 size_bits download verify m k H Hk)
      as (-> & P & T).
    split; assumption.
  - intros n.
    destruct (inauthentic_run_never_Executing size_bits download verify m n H)
      as (_ & E & _ & T).
    split; assumption.
Qed.

(** C3, as amended.  The orchestrator has no verdict of its own: a run
    reaches [Executing] exactly when the bound primitive returned true on
    the acquired buffer, and [SafeMode] exactly when it returned false.
    The primitive the source binds, [ed25519_verify], is a simulation
    stub that returns true whatever the memory, data, length and key, so
    with it the verdict is always Authentic. *)
Theorem verdict_alone_decides_route
        (size_bits : Z) (download : mem -> ptr -> Z -> mem)
        (verify : mem -> ptr -> Z -> ptr -> bool) (m : mem) :
  ((exists n,
       pc (boot_run size_bits download verify n (boot_entry m)) = Executing)
   <-> boot_verdict size_bits download verify m = true) /\
  ((exists n,
       pc (boot_run size_bits download verify n (boot_entry m)) = SafeMode)
   <-> boot_verdict size_bits download verify m = false) /\
  (forall (m' : mem) (data : ptr) (data_size : Z) (signature_key : ptr),
      ed25519_verify m' data data_size signature_key = true) /\
  boot_verdict size_bits download ed25519_verify m = true.
Proof.
  split; [|split; [|split; reflexivity]].
  - split.
    + intros [n Hn].
      destruct (boot_verdict size_bits download verify m) eqn:H;
        [reflexivity|].
      exfalso.
      destruct (inauthentic_run_never_Executing size_bits download verify
                  m n H) as (_ & E & _).
      contradiction.
    + intros H. exists 4%nat. apply authentic_run_4. exact H.
  - split.
    + intros [n Hn].
      destruct (boot_verdict size_bits download verify m) eqn:H;
        [|reflexivity].
      exfalso.
      destruct (authentic_run_never_SafeMode size_bits download verify
                  m n H) as (E & _).
      contradiction.
    + intros H. exists 3%nat.
      apply (inauthentic_run_from_3 size_bits download verify m 3 H).
      lia.
Qed.

(** C8. Safe mode is terminal.  Once a run has called [enter_safe_mode],
    every later configuration equals the one of that moment: control is
    in [SafeMode] (so it has not returned and is at no other program
    point), the trace has not grown, and [execute_stage0] has not been
    called, before or after. *)
Theorem safe_mode_is_terminal
        (size_bits : Z) (download : mem -> ptr -> Z -> mem)
        (verify : mem -> ptr -> Z -> ptr -> bool) (m : mem) (n : nat) :
  In Call_enter_safe_mode
     (trace (boot_run size_bits download verify n (boot_entry m))) ->
  forall k, (n <= k)%nat ->
    boot_run size_bits download verify k (boot_entry m)
    = boot_run size_bits download verify n (boot_entry m) /\
    pc (boot_run size_bits download verify k (boot_entry m)) = SafeMode /\
    existsb is_execute_stage0
      (trace (boot_run size_bits download verify k (boot_entry m)))
    = false.
Proof.
  intros HIn k Hk.
  destruct (enter_safe_mode_recorded size_bits download verify m n HIn)
    as [H Hn].
  destruct (inauthentic_run_from_3 size_bits download verify m n H Hn)
    as (En & _).
  destruct (inauthentic_run_from_3 size_bits download verify m k H)
    as (Ek & P & _); [lia|].
  destruct (inauthentic_run_never_Executing size_bits download verify m k H)
    as (_ & _ & _ & T).
  rewrite En. rewrite Ek in *. repeat split; assumption.
Qed.

(** C9. In the code as written the verification result does not depend
    on its inputs, so every run of [boot_rom_entry] calls
    [execute_stage0] and none calls [enter_safe_mode] or is ever in
    [SafeMode]: for every initial memory (every key value and prior RAM
    contents) and, the acquirer being replaced by any other, for every
    payload. *)
Theorem boot_rom_entry_always_executes (size_bits : Z) (m : mem) :
  (forall (m' : mem) (data : ptr) (data_size : Z) (signature_key : ptr),
      ed25519_verify m' data data_size signature_key = true) /\
  (exists n,
      pc (boot_rom_entry size_bits n m) = Executing /\
      In (Call_execute_stage0 genome_buffer)
         (trace (boot_rom_entry size_bits n m))) /\
  (forall n,
      pc (boot_rom_entry size_bits n m) <> SafeMode /\
      ~ In Call_enter_safe_mode (trace (boot_rom_entry size_bits n m))) /\
  (forall (download : mem -> ptr -> Z -> mem) (n : nat),
      pc (boot_run size_bits download ed25519_verify n (boot_entry m))
      <> SafeMode /\
      ~ In Call_enter_safe_mode
           (trace (boot_run size_bits download ed25519_verify n
                     (boot_entry m)))).
Proof.
  split; [reflexivity|]. split; [|split].
  - exists 4%nat. unfold boot_rom_entry. apply authentic_run_4. reflexivity.
  - intros n. unfold boot_rom_entry. apply authentic_run_never_SafeMode.
    reflexivity.
  - intros download n. apply authentic_run_never_SafeMode. reflexivity.
Qed.

(** C4, as amended.  The length given to the signature verification is
    the fixed capacity [GENOME_MAX_SIZE] (128 KiB), whatever the acquirer
    and the primitive do.  In [boot_rom_entry] it is also the size with
    which [download_genome] was called, and [download_genome] has written
    every one of these bytes: the acquirer fills the whole buffer and
    reports no count. *)
Theorem verify_length_is_capacity (size_bits : Z) (m : mem) (n : nat) (x : Z) :
  18 <= size_bits ->
  In x (verify_lengths (trace (boot_rom_entry size_bits n m))) ->
  x = GENOME_MAX_SIZE /\
  In (Call_download_genome genome_buffer x)
     (trace (boot_rom_entry size_bits n m)) /\
  (forall i, 0 <= i < x ->
     load (memory (boot_rom_entry size_bits n m)) (ptr_add genome_buffer i)
     = i mod 256) /\
  (forall (download : mem -> ptr -> Z -> mem)
          (verify : mem -> ptr -> Z -> ptr -> bool) (k : nat) (y : Z),
     In y (verify_lengths
             (trace (boot_run size_bits download verify k (boot_entry m)))) ->
     y = GENOME_MAX_SIZE).
Proof.
  intros Hw HIn.
  assert (Hx : x = GENOME_MAX_SIZE).
  { rewrite <- (size_t_GENOME_MAX_SIZE size_bits Hw).
    apply (boot_run_verify_lengths size_bits download_genome ed25519_verify
             m n x HIn). }
  split; [exact Hx|]. split; [|split].
  - subst x. revert HIn. entry_cases n;
      rewrite ?(size_t_GENOME_MAX_SIZE size_bits Hw);
      cbn [verify_lengths In]; intros HIn;
      try contradiction; auto 10.
  - intros i Hi. subst x. revert HIn. entry_cases n;
      rewrite ?(size_t_GENOME_MAX_SIZE size_bits Hw);
      cbn [verify_lengths In]; intros HIn;
      try contradiction;
      unfold execute_stage0; apply download_genome_inside; exact Hi.
  - intros download verify k y Hy.
    rewrite <- (size_t_GENOME_MAX_SIZE size_bits Hw).
    apply (boot_run_verify_lengths size_bits download verify m k y Hy).
Qed.

(** C5, as amended.  [boot_rom_entry] reaches [Executing], and in every
    configuration that is in [Executing] the 32 bytes of
    [device_private_key] still hold the derived key, byte [i] being
    [(i + 0xAB) mod 256]: nothing overwrites the key before control is
    given to stage-0. *)
Theorem key_intact_at_Executing (size_bits : Z) (m : mem) (n : nat) (i : Z) :
  8 <= size_bits ->
  pc (boot_rom_entry size_bits n m) = Executing ->
  0 <= i < PRIVATE_KEY_SIZE ->
  load (memory (boot_rom_entry size_bits n m)) (ptr_add device_private_key i)
  = (i + 0xAB) mod 256 /\
  load (memory (boot_rom_entry size_bits n m)) (ptr_add device_private_key i)
  = load (memory (boot_rom_entry size_bits 1 m))
         (ptr_add device_private_key i).
Proof.
  intros Hw Hpc Hi.
  assert (K : load (memory (boot_rom_entry size_bits 1 m))
                   (ptr_add device_private_key i) = (i + 0xAB) mod 256).
  { unfold boot_rom_entry. boot_eval.
    rewrite size_t_sizeof_device_private_key by lia.
    apply puf_derive_key_inside; assumption. }
  assert (E : load (memory (boot_rom_entry size_bits n m))
                   (ptr_add device_private_key i)
              = load (memory (boot_rom_entry size_bits 1 m))
                     (ptr_add device_private_key i)).
  { revert Hpc. entry_cases n; intros Hpc; try discriminate.
    apply download_genome_outside. left. simpl. discriminate. }
  split; [rewrite E; exact K | exact E].
Qed.

(** C6, as amended.  The orchestrator does not zero the buffer: when
    [download_genome] is about to be called ([KeyDerived]) every byte of
    the genome buffer holds what it held at entry.  After the
    acquisition ([PayloadAcquired]) every byte of the buffer has been
    written by this acquisition, byte [i] being [i mod 256], so no byte
    below the capacity keeps earlier contents. *)
Theorem buffer_unchanged_until_acquired (size_bits : Z) (m : mem) (i : Z) :
  18 <= size_bits ->
  0 <= i < GENOME_MAX_SIZE ->
  pc (boot_rom_entry size_bits 1 m) = KeyDerived /\
  load (memory (boot_rom_entry size_bits 1 m)) (ptr_add genome_buffer i)
  = load m (ptr_add genome_buffer i) /\
  pc (boot_rom_entry size_bits 2 m) = PayloadAcquired /\
  load (memory (boot_rom_entry size_bits 2 m)) (ptr_add genome_buffer i)
  = i mod 256.
Proof.
  intros Hw Hi. unfold boot_rom_entry. boot_eval.
  split; [reflexivity|]. split; [|split; [reflexivity|]].
  - unfold puf_init. apply puf_derive_key_outside. left. simpl. discriminate.
  - rewrite (size_t_GENOME_MAX_SIZE size_bits Hw).
    apply download_genome_inside. exact Hi.
Qed.

(** C7. [download_genome] writes only the cells [genome_buffer[0]] to
    [genome_buffer[capacity - 1]]: a cell of another block, below the
    buffer, or at or beyond the capacity boundary holds after the call
    what it held before.  The function is given the capacity only; how
    much the source offers cannot make it write further. *)
Theorem download_genome_within_capacity
        (m : mem) (buf : ptr) (capacity : Z) (q : ptr) :
  fst q <> fst buf \/ snd q < snd buf \/ snd buf + capacity <= snd q ->
  load (download_genome m buf capacity) q = load m q.
Proof. apply download_genome_outside. Qed.

(** C10. The derived key is a fixed pattern: byte [i] of the output
    buffer is [(i + 0xAB) mod 256] for every index below the requested
    length, whatever the memory the function starts from, so two runs,
    or two devices, derive the same bytes. *)
Theorem puf_derive_key_fixed_pattern
        (size_bits : Z) (m m' : mem) (key_buffer : ptr)
        (buffer_size i : Z) :
  8 <= size_bits ->
  0 <= i < buffer_size ->
  load (puf_derive_key size_bits m key_buffer buffer_size)
       (ptr_add key_buffer i) = (i + 0xAB) mod 256 /\
  load (puf_derive_key size_bits m' key_buffer buffer_size)
       (ptr_add key_buffer i)
  = load (puf_derive_key size_bits m key_buffer buffer_size)
         (ptr_add key_buffer i).
Proof.
  intros Hw Hi.
  rewrite !puf_derive_key_inside by assumption. split; reflexivity.
Qed.

(** * Concrete runs *)

(** C1 on a 32-bit platform, with the source's acquirer on a zeroed
    memory and a primitive that reads the payload and the key. *)
Lemma authentic_boot_reaches_Executing_witness :
  boot_verdict 32 download_genome verify_byte0 zero_mem = true /\
  ((exists n,
       pc (boot_run 32 download_genome verify_byte0 n (boot_entry zero_mem))
       = Executing /\
       In (Call_execute_stage0 genome_buffer)
          (trace (boot_run 32 download_genome verify_byte0 n
                    (boot_entry zero_mem)))) /\
   (forall n,
       pc (boot_run 32 download_genome verify_byte0 n (boot_entry zero_mem))
       <> SafeMode /\
       ~ In Call_enter_safe_mode
            (trace (boot_run 32 download_genome verify_byte0 n
                      (boot_entry zero_mem))))).
Proof.
  split; [vm_compute; reflexivity|].
  apply (authentic_boot_reaches_Executing 32 download_genome verify_byte0
           zero_mem).
  vm_compute; reflexivity.
Defined.

(** C2 on the same inputs with a primitive that rejects the payload: its
    second byte is 1, the first key byte is 0. *)
Lemma inauthentic_boot_reaches_SafeMode_witness :
  boot_verdict 32 download_genome verify_byte1 zero_mem = false /\
  ((exists n, forall k, (n <= k)%nat ->
       pc (boot_run 32 download_genome verify_byte1 k (boot_entry zero_mem))
       = SafeMode /\
       In Call_enter_safe_mode
          (trace (boot_run 32 download_genome verify_byte1 k
                    (boot_entry zero_mem)))) /\
   (forall n,
       pc (boot_run 32 download_genome verify_byte1 n (boot_entry zero_mem))
       <> Executing /\
       existsb is_execute_stage0
         (trace (boot_run 32 download_genome verify_byte1 n
                   (boot_entry zero_mem)))
       = false)).
Proof.
  split; [vm_compute; reflexivity|].
  apply (inauthentic_boot_reaches_SafeMode 32 download_genome verify_byte1
           zero_mem).
  vm_compute; reflexivity.
Defined.

(** C3 as stated fails: with the primitive the source binds, the verdict
    on a zeroed memory is Authentic, the boot is in [Executing] after
    four steps and is never in [SafeMode]. *)
Lemma stub_verdict_is_authentic_counterexample :
  boot_verdict 32 download_genome ed25519_verify zero_mem = true /\
  pc (boot_rom_entry 32 4 zero_mem) = Executing /\
  ~ (exists n, pc (boot_rom_entry 32 n zero_mem) = SafeMode).
Proof.
  split; [reflexivity|]. split; [vm_compute; reflexivity|].
  intros [n Hn]. revert Hn. unfold boot_rom_entry.
  apply authentic_run_never_SafeMode. reflexivity.
Qed.

(** C4 as stated fails: in the run on a zeroed memory the one
    verification call is given the fixed capacity, 128 KiB. *)
Lemma verify_length_is_capacity_counterexample :
  verify_lengths (trace (boot_rom_entry 32 3 zero_mem)) = [GENOME_MAX_SIZE] /\
  GENOME_MAX_SIZE = 131072.
Proof. split; vm_compute; reflexivity. Qed.

Lemma verify_length_is_capacity_witness :
  18 <= 32 /\
  In 131072 (verify_lengths (trace (boot_rom_entry 32 3 zero_mem))) /\
  131072 = GENOME_MAX_SIZE /\
  In (Call_download_genome genome_buffer 131072)
     (trace (boot_rom_entry 32 3 zero_mem)) /\
  (forall i, 0 <= i < 131072 ->
     load (memory (boot_rom_entry 32 3 zero_mem)) (ptr_add genome_buffer i)
     = i mod 256) /\
  (forall (download : mem -> ptr -> Z -> mem)
          (verify : mem -> ptr -> Z -> ptr -> bool) (k : nat) (y : Z),
     In y (verify_lengths
             (trace (boot_run 32 download verify k (boot_entry zero_mem)))) ->
     y = GENOME_MAX_SIZE).
Proof.
  split; [lia|]. split; [vm_compute; left; reflexivity|].
  apply (verify_length_is_capacity 32 zero_mem 3 131072);
    [lia | vm_compute; left; reflexivity].
Defined.

(** C5 as stated fails: in the run on a zeroed memory, when control is
    in [Executing] the 32 bytes of [device_private_key] are the bytes
    derived at the first step. *)
Lemma key_not_wiped_counterexample :
  pc (boot_rom_entry 32 4 zero_mem) = Executing /\
  read_bytes (memory (boot_rom_entry 32 4 zero_mem)) device_private_key 32
  = read_bytes (memory (boot_rom_entry 32 1 zero_mem)) device_private_key 32 /\
  read_bytes (memory (boot_rom_entry 32 4 zero_mem)) device_private_key 32
  = [171; 172; 173; 174; 175; 176; 177; 178; 179; 180; 181; 182; 183; 184; 185; 186; 187; 188; 189; 190; 191; 192; 193; 194; 195; 196; 197; 198; 199; 200; 201; 202].
Proof. split; [|split]; vm_compute; reflexivity. Qed.

Lemma key_intact_at_Executing_witness :
  8 <= 32 /\
  pc (boot_rom_entry 32 4 zero_mem) = Executing /\
  0 <= 31 < PRIVATE_KEY_SIZE /\
  load (memory (boot_rom_entry 32 4 zero_mem)) (ptr_add device_private_key 31)
  = (31 + 0xAB) mod 256 /\
  load (memory (boot_rom_entry 32 4 zero_mem)) (ptr_add device_private_key 31)
  = load (memory (boot_rom_entry 32 1 zero_mem))
         (ptr_add device_private_key 31).
Proof.
  split; [lia|]. split; [vm_compute; reflexivity|].
  split; [unfold PRIVATE_KEY_SIZE; lia|].
  apply (key_intact_at_Executing 32 zero_mem 4 31);
    [lia | vm_compute; reflexivity | unfold PRIVATE_KEY_SIZE; lia].
Defined.

(** C6 as stated fails: on a memory of [0xFF] bytes, when
    [download_genome] is about to be called the only calls made are the
    two of the key provider and the first byte of the buffer is [0xFF],
    not zero. *)
Lemma buffer_not_zeroed_counterexample :
  pc (boot_rom_entry 32 1 ff_mem) = KeyDerived /\
  trace (boot_rom_entry 32 1 ff_mem)
  = [Call_puf_init; Call_puf_derive_key device_private_key 32] /\
  load (memory (boot_rom_entry 32 1 ff_mem)) (ptr_add genome_buffer 0) = 0xFF.
Proof. split; [|split]; vm_compute; reflexivity. Qed.

Lemma buffer_unchanged_until_acquired_witness :
  18 <= 32 /\
  0 <= 300 < GENOME_MAX_SIZE /\
  pc (boot_rom_entry 32 1 ff_mem) = KeyDerived /\
  load (memory (boot_rom_entry 32 1 ff_mem)) (ptr_add genome_buffer 300)
  = load ff_mem (ptr_add genome_buffer 300) /\
  pc (boot_rom_entry 32 2 ff_mem) = PayloadAcquired /\
  load (memory (boot_rom_entry 32 2 ff_mem)) (ptr_add genome_buffer 300)
  = 300 mod 256.
Proof.
  split; [lia|]. split; [unfold GENOME_MAX_SIZE; lia|].
  apply (buffer_unchanged_until_acquired 32 ff_mem 300);
    [lia | unfold GENOME_MAX_SIZE; lia].
Defined.

(** C7 at the capacity boundary of the genome buffer. *)
Lemma download_genome_within_capacity_witness :
  (fst (ptr_add genome_buffer GENOME_MAX_SIZE) <> fst genome_buffer \/
   snd (ptr_add genome_buffer GENOME_MAX_SIZE) < snd genome_buffer \/
   snd genome_buffer + GENOME_MAX_SIZE
   <= snd (ptr_add genome_buffer GENOME_MAX_SIZE)) /\
  load (download_genome ff_mem genome_buffer GENOME_MAX_SIZE)
       (ptr_add genome_buffer GENOME_MAX_SIZE)
  = load ff_mem (ptr_add genome_buffer GENOME_MAX_SIZE).
Proof.
  split; [right; right; simpl; lia|].
  apply (download_genome_within_capacity ff_mem genome_buffer GENOME_MAX_SIZE
           (ptr_add genome_buffer GENOME_MAX_SIZE)).
  right; right; simpl; lia.
Defined.

(** C8 on the run that a rejecting primitive sends to safe mode. *)
Lemma safe_mode_is_terminal_witness :
  In Call_enter_safe_mode
     (trace (boot_run 32 download_genome verify_byte1 3
               (boot_entry zero_mem))) /\
  (forall k, (3 <= k)%nat ->
     boot_run 32 download_genome verify_byte1 k (boot_entry zero_mem)
     = boot_run 32 download_genome verify_byte1 3 (boot_entry zero_mem) /\
     pc (boot_run 32 download_genome verify_byte1 k (boot_entry zero_mem))
     = SafeMode /\
     existsb is_execute_stage0
       (trace (boot_run 32 download_genome verify_byte1 k
                 (boot_entry zero_mem)))
     = false).
Proof.
  assert (H : In Call_enter_safe_mode
                 (trace (boot_run 32 download_genome verify_byte1 3
                           (boot_entry zero_mem)))).
  { vm_compute. do 4 right. left. reflexivity. }
  split; [exact H|].
  apply (safe_mode_is_terminal 32 download_genome verify_byte1 zero_mem 3 H).
Defined.

(** C10 for the last byte of the 32-byte key, from two memories. *)
Lemma puf_derive_key_fixed_pattern_witness :
  8 <= 32 /\ 0 <= 31 < 32 /\
  load (puf_derive_key 32 zero_mem device_private_key 32)
       (ptr_add device_private_key 31) = (31 + 0xAB) mod 256 /\
  load (puf_derive_key 32 ff_mem device_private_key 32)
       (ptr_add device_private_key 31)
  = load (puf_derive_key 32 zero_mem device_private_key 32)
         (ptr_add device_private_key 31).
Proof.
  split; [lia|]. split; [lia|].
  apply (puf_derive_key_fixed_pattern 32 zero_mem ff_mem device_private_key
           32 31); lia.
Defined.


(** * Further properties of the source *)

(** ** Cells of a buffer *)

Lemma in_buffer_true (buf : ptr) (n : Z) (q : ptr) :
  in_buffer buf n q = true ->
  0 <= snd q - snd buf < n /\ q = ptr_add buf (snd q - snd buf).
Proof.
  unfold in_buffer. rewrite !andb_true_iff, block_eqb_eq.
  intros [[Hb Hlo] Hhi]. apply Z.leb_le in Hlo. apply Z.ltb_lt in Hhi.
  split; [lia|]. destruct q as [b o], buf as [b' o']. simpl in *.
  subst b'. unfold ptr_add. simpl. f_equal. lia.
Qed.

Lemma in_buffer_false (buf : ptr) (n : Z) (q : ptr) :
  in_buffer buf n q = false ->
  fst q <> fst buf \/ snd q < snd buf \/ snd buf + n <= snd q.
Proof.
  unfold in_buffer. rewrite !andb_false_iff.
  intros [[Hb|Hlo]|Hhi].
  - left. intros E. apply block_eqb_eq in E. congruence.
  - right. left. apply Z.leb_gt in Hlo. exact Hlo.
  - right. right. apply Z.ltb_ge in Hhi. exact Hhi.
Qed.

Lemma in_buffer_shrink (buf : ptr) (n n' : Z) (q : ptr) :
  n' <= n -> in_buffer buf n q = false -> in_buffer buf n' q = false.
Proof.
  intros Hn H. apply in_buffer_false in H.
  destruct (in_buffer buf n' q) eqn:E; [|reflexivity].
  apply in_buffer_true in E. destruct E as [Hr Hq].
  rewrite Hq in H. unfold ptr_add in H. simpl in H.
  destruct H as [H|H]; [congruence | lia].
Qed.

(** A conversion to [size_t] never makes a size larger. *)
Lemma size_t_le (size_bits x : Z) : 0 <= x -> size_t size_bits x <= x.
Proof.
  intros Hx. unfold size_t.
  destruct (Z.eq_dec (2 ^ size_bits) 0) as [E|E].
  - rewrite E. rewrite Z.mod_0_r. lia.
  - assert (0 <= 2 ^ size_bits) by apply Z.pow_nonneg, Z.le_0_2.
    apply Z.mod_le; lia.
Qed.

(** ** The two buffer-filling functions in closed form *)

Lemma puf_derive_key_load
      (size_bits : Z) (m : mem) (key_buffer : ptr) (buffer_size : Z)
      (q : ptr) :
  8 <= size_bits ->
  load (puf_derive_key size_bits m key_buffer buffer_size) q
  = if in_buffer key_buffer buffer_size q
    then (snd q - snd key_buffer + 0xAB) mod 256
    else load m q.
Proof.
  intros Hw. destruct (in_buffer key_buffer buffer_size q) eqn:E.
  - apply in_buffer_true in E. destruct E as [Hr Hq].
    rewrite Hq at 1. apply puf_derive_key_inside; assumption.
  - apply puf_derive_key_outside. apply in_buffer_false. exact E.
Qed.

Lemma download_genome_load
      (m : mem) (buf : ptr) (buffer_size : Z) (q : ptr) :
  load (download_genome m buf buffer_size) q
  = if in_buffer buf buffer_size q
    then (snd q - snd buf) mod 256
    else load m q.
Proof.
  destruct (in_buffer buf buffer_size q) eqn:E.
  - apply in_buffer_true in E. destruct E as [Hr Hq].
    rewrite Hq at 1. apply download_genome_inside. exact Hr.
  - apply download_genome_outside. apply in_buffer_false. exact E.
Qed.

(** X1. After [puf_derive_key] a cell of the key buffer holds its index
    plus [0xAB] modulo 256 and every other cell holds what it held: the
    loop writes [buffer_size] cells and no other, none when
    [buffer_size] is 0. *)
Theorem puf_derive_key_closed_form
        (size_bits : Z) (m : mem) (key_buffer : ptr) (buffer_size : Z)
        (q : ptr) :
  8 <= size_bits ->
  load (puf_derive_key size_bits m key_buffer buffer_size) q
  = if in_buffer key_buffer buffer_size q
    then (snd q - snd key_buffer + 0xAB) mod 256
    else load m q.
Proof. apply puf_derive_key_load. Qed.

(** X2. After [download_genome] a cell of the buffer holds its index
    modulo 256 and every other cell holds what it held, for every
    buffer and every size. *)
Theorem download_genome_closed_form
        (m : mem) (buf : ptr) (buffer_size : Z) (q : ptr) :
  load (download_genome m buf buffer_size) q
  = if in_buffer buf buffer_size q
    then (snd q - snd buf) mod 256
    else load m q.
Proof. apply download_genome_load. Qed.

(** X3. Key derivation and download into disjoint buffers do not
    interfere: done in either order they leave the same byte in every
    cell. *)
Theorem derive_download_commute
        (size_bits : Z) (m : mem) (key_buffer buf : ptr) (key_size size : Z)
        (q : ptr) :
  8 <= size_bits ->
  fst key_buffer <> fst buf \/ snd key_buffer + key_size <= snd buf \/
  snd buf + size <= snd key_buffer ->
  load (download_genome (puf_derive_key size_bits m key_buffer key_size)
          buf size) q
  = load (puf_derive_key size_bits (download_genome m buf size)
            key_buffer key_size) q.
Proof.
  intros Hw Hd.
  rewrite download_genome_load, !puf_derive_key_load by exact Hw.
  rewrite download_genome_load.
  destruct (in_buffer buf size q) eqn:Eb;
    destruct (in_buffer key_buffer key_size q) eqn:Ek; try reflexivity.
  exfalso.
  apply in_buffer_true in Eb. apply in_buffer_true in Ek.
  destruct Eb as [Hb Eb], Ek as [Hk Ek].
  assert (Fb : fst q = fst buf) by (rewrite Eb; reflexivity).
  assert (Fk : fst q = fst key_buffer) by (rewrite Ek; reflexivity).
  destruct Hd as [Hd|Hd]; [congruence | lia].
Qed.


(** ** What a run writes *)

Lemma derive_key_frame (size_bits : Z) (m : mem) (q : ptr) :
  in_buffer device_private_key PRIVATE_KEY_SIZE q = false ->
  load (puf_derive_key size_bits m device_private_key
          (size_t size_bits sizeof_device_private_key)) q
  = load m q.
Proof.
  intros H. apply puf_derive_key_outside. apply in_buffer_false.
  apply (in_buffer_shrink _ PRIVATE_KEY_SIZE); [|exact H].
  unfold sizeof_device_private_key. rewrite Z.mul_1_r.
  apply size_t_le. unfold PRIVATE_KEY_SIZE. lia.
Qed.

Lemma download_frame (size_bits : Z) (m : mem) (q : ptr) :
  in_buffer genome_buffer GENOME_MAX_SIZE q = false ->
  load (download_genome m genome_buffer (size_t size_bits GENOME_MAX_SIZE)) q
  = load m q.
Proof.
  intros H. apply download_genome_outside. apply in_buffer_false.
  apply (in_buffer_shrink _ GENOME_MAX_SIZE); [|exact H].
  apply size_t_le. unfold GENOME_MAX_SIZE. lia.
Qed.

(** X5. [boot_rom_entry] writes only the 32 cells of
    [device_private_key] and the 128 KiB of the genome buffer: at every
    step of every run, on every platform, any other cell holds what it
    held at entry.  The signature key in particular is never written. *)
Theorem boot_rom_entry_frame (size_bits : Z) (m : mem) (n : nat) (q : ptr) :
  in_buffer device_private_key PRIVATE_KEY_SIZE q = false ->
  in_buffer genome_buffer GENOME_MAX_SIZE q = false ->
  load (memory (boot_rom_entry size_bits n m)) q = load m q.
Proof.
  intros Hk Hg. entry_cases n; unfold execute_stage0, puf_init;
    rewrite ?download_frame by exact Hg;
    rewrite ?derive_key_frame by exact Hk;
    reflexivity.
Qed.

(** X6. [boot_rom_entry] returns: its fifth step is the return, after
    exactly five calls in the order of the source, and the memory it
    leaves is the one the download produced from the derived key's.
    Control comes back from [execute_stage0], whose body is empty. *)
Theorem boot_rom_entry_returns (size_bits : Z) (m : mem) (n : nat) :
  (5 <= n)%nat ->
  boot_rom_entry size_bits n m
  = mkConfig Returned
      (download_genome
         (puf_derive_key size_bits m device_private_key
            (size_t size_bits sizeof_device_private_key))
         genome_buffer (size_t size_bits GENOME_MAX_SIZE))
      [Call_puf_init;
       Call_puf_derive_key device_private_key
         (size_t size_bits sizeof_device_private_key);
       Call_download_genome genome_buffer (size_t size_bits GENOME_MAX_SIZE);
       Call_ed25519_verify genome_buffer (size_t size_bits GENOME_MAX_SIZE)
         GENOME_SIGNATURE_KEY true;
       Call_execute_stage0 genome_buffer].
Proof.
  intros Hn. entry_cases n; try lia; reflexivity.
Qed.

(** ** Order of the program points *)

Section Progress.

Variable size_bits : Z.
Variable download : mem -> ptr -> Z -> mem.
Variable verify : mem -> ptr -> Z -> ptr -> bool.

Lemma boot_step_rank (c c' : config) :
  boot_step size_bits download verify c = Some c' ->
  (pc c = SafeMode /\ c' = c) \/
  (boot_rank (pc c) < boot_rank (pc c'))%nat.
Proof.
  unfold boot_step. intros H.
  destruct (pc c) eqn:P;
    try (destruct (verify _ _ _ _));
    inversion H; subst c'; clear H; cbn [pc boot_rank];
    try (right; lia).
  left. split; reflexivity.
Qed.

Lemma boot_run_rank (n : nat) : forall c : config,
  (boot_rank (pc c)
   <= boot_rank (pc (boot_run size_bits download verify n c)))%nat.
Proof.
  induction n as [|n IH]; intros c; simpl; [lia|].
  destruct (boot_step size_bits download verify c) as [c'|] eqn:E; [|lia].
  specialize (IH c').
  destruct (boot_step_rank c c' E) as [[_ ->]|Hlt]; lia.
Qed.

End Progress.

(** X7. Every step of the boot sequence moves forward: from any
    configuration, with any acquirer and primitive, a step either is a
    turn of the safe-mode loop, which changes nothing, or leads to a
    program point further along.  No step leads back. *)
Theorem boot_step_forward
        (size_bits : Z) (download : mem -> ptr -> Z -> mem)
        (verify : mem -> ptr -> Z -> ptr -> bool) (c c' : config) :
  boot_step size_bits download verify c = Some c' ->
  (pc c = SafeMode /\ c' = c) \/
  (boot_rank (pc c) < boot_rank (pc c'))%nat.
Proof. apply boot_step_rank. Qed.

(** X8. Over any number of steps from any configuration the program
    point never moves back, and once control is in [Executing] or has
    returned it is never in [SafeMode] later: the hand-off is not
    followed by a lockout. *)
Theorem boot_run_no_back_edge
        (size_bits : Z) (download : mem -> ptr -> Z -> mem)
        (verify : mem -> ptr -> Z -> ptr -> bool) (c : config) (a b : nat) :
  (boot_rank (pc (boot_run size_bits download verify a c))
   <= boot_rank (pc (boot_run size_bits download verify (a + b) c)))%nat /\
  (pc c = Executing \/ pc c = Returned ->
   pc (boot_run size_bits download verify a c) <> SafeMode).
Proof.
  split.
  - rewrite boot_run_add. apply boot_run_rank.
  - intros [Hc|Hc].
    + destruct a as [|a]; cbn [boot_run]; [rewrite Hc; discriminate|].
      assert (E : boot_step size_bits download verify c
                  = Some (mkConfig Returned
                            (execute_stage0 (memory c) genome_buffer)
                            (trace c)))
        by (unfold boot_step; rewrite Hc; reflexivity).
      rewrite E. rewrite boot_run_halted by reflexivity. discriminate.
    + rewrite boot_run_halted by (unfold boot_step; rewrite Hc; reflexivity).
      rewrite Hc. discriminate.
Qed.

(** ** Runs with any acquirer and primitive *)

(** X9. The boot sequence is decided after five steps: from then on
    control has returned, when the verdict was Authentic, or is in
    [SafeMode], when it was not.  No run stays at an earlier program
    point. *)
Theorem boot_settles_in_five_steps
        (size_bits : Z) (download : mem -> ptr -> Z -> mem)
        (verify : mem -> ptr -> Z -> ptr -> bool) (m : mem) (n : nat) :
  (5 <= n)%nat ->
  (boot_verdict size_bits download verify m = true /\
   pc (boot_run size_bits download verify n (boot_entry m)) = Returned) \/
  (boot_verdict size_bits download verify m = false /\
   pc (boot_run size_bits download verify n (boot_entry m)) = SafeMode).
Proof.
  intros Hn. destruct (boot_verdict size_bits download verify m) eqn:H.
  - left. split; [reflexivity|].
    boot_cases n H; try lia; reflexivity.
  - right. split; [reflexivity|].
    destruct (inauthentic_run_from_3 size_bits download verify m n H)
      as (-> & P & _); [lia | exact P].
Qed.

(** X10. [execute_stage0] is called only on the genome buffer and only
    in a run whose verdict was Authentic: a trace that has the call
    also has, for the same pointer, the download and a verification
    that returned true. *)
Theorem execute_only_after_authentic
        (size_bits : Z) (download : mem -> ptr -> Z -> mem)
        (verify : mem -> ptr -> Z -> ptr -> bool) (m : mem) (n : nat)
        (p : ptr) :
  In (Call_execute_stage0 p)
     (trace (boot_run size_bits download verify n (boot_entry m))) ->
  p = genome_buffer /\
  boot_verdict size_bits download verify m = true /\
  In (Call_ed25519_verify p (size_t size_bits GENOME_MAX_SIZE)
        GENOME_SIGNATURE_KEY true)
     (trace (boot_run size_bits download verify n (boot_entry m))) /\
  In (Call_download_genome p (size_t size_bits GENOME_MAX_SIZE))
     (trace (boot_run size_bits download verify n (boot_entry m))).
Proof.
  intros HIn. destruct (boot_verdict size_bits download verify m) eqn:H.
  - revert HIn. boot_cases n H; cbn [In]; intros HIn;
      repeat (destruct HIn as [HIn|HIn]; try discriminate HIn);
      try contradiction;
      inversion HIn; subst p; cbn [In]; auto 10.
  - exfalso.
    destruct (inauthentic_run_never_Executing size_bits download verify
                m n H) as (_ & _ & _ & T).
    assert (T' : existsb is_execute_stage0
                   (trace (boot_run size_bits download verify n
                             (boot_entry m))) = true).
    { apply existsb_exists. exists (Call_execute_stage0 p).
      split; [exact HIn | reflexivity]. }
    congruence.
Qed.

(** X11. Nothing is written after the acquisition: from the
    [PayloadAcquired] point on the memory of a run is the memory the
    verification was given, in the branch that executes as in the one
    that locks.  The bytes handed to [execute_stage0] are the bytes
    verified. *)
Theorem memory_frozen_after_acquisition
        (size_bits : Z) (download : mem -> ptr -> Z -> mem)
        (verify : mem -> ptr -> Z -> ptr -> bool) (m : mem) (n : nat) :
  (2 <= n)%nat ->
  memory (boot_run size_bits download verify n (boot_entry m))
  = memory (boot_run size_bits download verify 2 (boot_entry m)).
Proof.
  intros Hn. destruct (boot_verdict size_bits download verify m) eqn:H.
  - boot_cases n H; try lia; reflexivity.
  - destruct (Nat.eq_dec n 2) as [->|Hne]; [reflexivity|].
    destruct (inauthentic_run_from_3 size_bits download verify m n H)
      as (-> & _ & _); [lia|].
    unfold boot_verdict in H. boot_eval_in H. boot_eval. rewrite H.
    reflexivity.
Qed.

(** X12. A run verifies once: from its third step on the trace holds
    exactly one verification call, with the capacity as length, and
    before that none. *)
Theorem verify_called_once
        (size_bits : Z) (download : mem -> ptr -> Z -> mem)
        (verify : mem -> ptr -> Z -> ptr -> bool) (m : mem) (n : nat) :
  verify_lengths (trace (boot_run size_bits download verify n (boot_entry m)))
  = if (n <? 3)%nat then [] else [size_t size_bits GENOME_MAX_SIZE].
Proof.
  destruct (boot_verdict size_bits download verify m) eqn:H.
  - boot_cases n H; reflexivity.
  - destruct (Nat.ltb_spec n 3) as [Hn|Hn].
    + unfold boot_verdict in H. boot_eval_in H.
      boot_cases_rec 3%nat n H; try lia; reflexivity.
    + destruct (inauthentic_run_from_3 size_bits download verify m n H Hn)
        as (-> & _ & _).
      unfold boot_verdict in H. boot_eval_in H. boot_eval. rewrite H.
      reflexivity.
Qed.

(** X13. The derived key is handed to no one: in every run, with any
    acquirer and primitive, the only call that is given a pointer to
    [device_private_key] is the [puf_derive_key] call that fills it.
    Neither the download, nor the verification, nor stage-0 receives
    it. *)
Theorem device_key_passed_only_to_derive
        (size_bits : Z) (download : mem -> ptr -> Z -> mem)
        (verify : mem -> ptr -> Z -> ptr -> bool) (m : mem) (n : nat)
        (e : event) :
  In e (trace (boot_run size_bits download verify n (boot_entry m))) ->
  In device_private_key (event_ptrs e) ->
  e = Call_puf_derive_key device_private_key
        (size_t size_bits sizeof_device_private_key).
Proof.
  revert e.
  apply (boot_run_invariant size_bits download verify
           (fun c => forall e, In e (trace c) ->
                               In device_private_key (event_ptrs e) ->
                               e = Call_puf_derive_key device_private_key
                                     (size_t size_bits
                                        sizeof_device_private_key))).
  - intros c c' Hstep Hc e. unfold boot_step in Hstep.
    destruct (pc c);
      try (destruct (verify _ _ _ _));
      inversion Hstep; subst c'; clear Hstep; cbn [trace];
      try (apply Hc);
      intros HIn; repeat (apply in_app_or in HIn; destruct HIn as [HIn|HIn]);
      try (apply Hc; exact HIn);
      cbn [In] in HIn;
      repeat (destruct HIn as [HIn|HIn]); try contradiction;
      subst e; cbn [event_ptrs In]; intros HP;
      repeat (destruct HP as [HP|HP]); try contradiction;
      try discriminate HP; reflexivity.
  - simpl. intros e [].
Qed.

(** ** Concrete instances *)

Lemma puf_derive_key_closed_form_witness :
  8 <= 32 /\
  load (puf_derive_key 32 ff_mem device_private_key 32)
       (ptr_add device_private_key 31)
  = if in_buffer device_private_key 32 (ptr_add device_private_key 31)
    then (snd (ptr_add device_private_key 31) - snd device_private_key + 0xAB)
         mod 256
    else load ff_mem (ptr_add device_private_key 31).
Proof.
  split; [lia|].
  apply (puf_derive_key_closed_form 32 ff_mem device_private_key 32
           (ptr_add device_private_key 31)).
  lia.
Defined.

Lemma derive_download_commute_witness :
  8 <= 32 /\
  (fst device_private_key <> fst genome_buffer \/
   snd device_private_key + 32 <= snd genome_buffer \/
   snd genome_buffer + GENOME_MAX_SIZE <= snd device_private_key) /\
  load (download_genome (puf_derive_key 32 zero_mem device_private_key 32)
          genome_buffer GENOME_MAX_SIZE) genome_buffer
  = load (puf_derive_key 32
            (download_genome zero_mem genome_buffer GENOME_MAX_SIZE)
            device_private_key 32) genome_buffer.
Proof.
  split; [lia|]. split; [left; simpl; discriminate|].
  apply (derive_download_commute 32 zero_mem device_private_key genome_buffer
           32 GENOME_MAX_SIZE genome_buffer);
    [lia | left; simpl; discriminate].
Defined.


Lemma boot_rom_entry_frame_witness :
  in_buffer device_private_key PRIVATE_KEY_SIZE GENOME_SIGNATURE_KEY = false /\
  in_buffer genome_buffer GENOME_MAX_SIZE GENOME_SIGNATURE_KEY = false /\
  load (memory (boot_rom_entry 32 5 ff_mem)) GENOME_SIGNATURE_KEY
  = load ff_mem GENOME_SIGNATURE_KEY.
Proof.
  split; [vm_compute; reflexivity|]. split; [vm_compute; reflexivity|].
  apply (boot_rom_entry_frame 32 ff_mem 5 GENOME_SIGNATURE_KEY);
    vm_compute; reflexivity.
Defined.

Lemma boot_rom_entry_returns_witness :
  (5 <= 5)%nat /\
  boot_rom_entry 32 5 zero_mem
  = mkConfig Returned
      (download_genome
         (puf_derive_key 32 zero_mem device_private_key
            (size_t 32 sizeof_device_private_key))
         genome_buffer (size_t 32 GENOME_MAX_SIZE))
      [Call_puf_init;
       Call_puf_derive_key device_private_key
         (size_t 32 sizeof_device_private_key);
       Call_download_genome genome_buffer (size_t 32 GENOME_MAX_SIZE);
       Call_ed25519_verify genome_buffer (size_t 32 GENOME_MAX_SIZE)
         GENOME_SIGNATURE_KEY true;
       Call_execute_stage0 genome_buffer].
Proof.
  split; [lia|]. apply (boot_rom_entry_returns 32 zero_mem 5). lia.
Defined.

Lemma boot_step_forward_witness :
  boot_step 32 download_genome ed25519_verify (mkConfig Verified zero_mem [])
  = Some (mkConfig Executing zero_mem [Call_execute_stage0 genome_buffer]) /\
  ((pc (mkConfig Verified zero_mem []) = SafeMode /\
    mkConfig Executing zero_mem [Call_execute_stage0 genome_buffer]
    = mkConfig Verified zero_mem []) \/
   (boot_rank (pc (mkConfig Verified zero_mem []))
    < boot_rank
        (pc (mkConfig Executing zero_mem
               [Call_execute_stage0 genome_buffer])))%nat).
Proof.
  split; [reflexivity|].
  apply (boot_step_forward 32 download_genome ed25519_verify
           (mkConfig Verified zero_mem [])
           (mkConfig Executing zero_mem [Call_execute_stage0 genome_buffer])).
  reflexivity.
Defined.

Lemma boot_settles_in_five_steps_witness :
  (5 <= 5)%nat /\
  ((boot_verdict 32 download_genome verify_byte1 zero_mem = true /\
    pc (boot_run 32 download_genome verify_byte1 5 (boot_entry zero_mem))
    = Returned) \/
   (boot_verdict 32 download_genome verify_byte1 zero_mem = false /\
    pc (boot_run 32 download_genome verify_byte1 5 (boot_entry zero_mem))
    = SafeMode)).
Proof.
  split; [lia|].
  apply (boot_settles_in_five_steps 32 download_genome verify_byte1 zero_mem 5).
  lia.
Defined.

Lemma execute_only_after_authentic_witness :
  In (Call_execute_stage0 genome_buffer)
     (trace (boot_run 32 download_genome verify_byte0 4
               (boot_entry zero_mem))) /\
  genome_buffer = genome_buffer /\
  boot_verdict 32 download_genome verify_byte0 zero_mem = true /\
  In (Call_ed25519_verify genome_buffer (size_t 32 GENOME_MAX_SIZE)
        GENOME_SIGNATURE_KEY true)
     (trace (boot_run 32 download_genome verify_byte0 4
               (boot_entry zero_mem))) /\
  In (Call_download_genome genome_buffer (size_t 32 GENOME_MAX_SIZE))
     (trace (boot_run 32 download_genome verify_byte0 4
               (boot_entry zero_mem))).
Proof.
  assert (H : In (Call_execute_stage0 genome_buffer)
                 (trace (boot_run 32 download_genome verify_byte0 4
                           (boot_entry zero_mem)))).
  { vm_compute. do 4 right. left. reflexivity. }
  split; [exact H|].
  apply (execute_only_after_authentic 32 download_genome verify_byte0
           zero_mem 4 genome_buffer H).
Defined.

Lemma memory_frozen_after_acquisition_witness :
  (2 <= 4)%nat /\
  memory (boot_run 32 download_genome verify_byte0 4 (boot_entry zero_mem))
  = memory (boot_run 32 download_genome verify_byte0 2 (boot_entry zero_mem)).
Proof.
  split; [lia|].
  apply (memory_frozen_after_acquisition 32 download_genome verify_byte0
           zero_mem 4).
  lia.
Defined.

Lemma device_key_passed_only_to_derive_witness :
  In (Call_puf_derive_key device_private_key 32)
     (trace (boot_run 32 download_genome verify_byte1 3
               (boot_entry zero_mem))) /\
  In device_private_key
     (event_ptrs (Call_puf_derive_key device_private_key 32)) /\
  Call_puf_derive_key device_private_key 32
  = Call_puf_derive_key device_private_key
      (size_t 32 sizeof_device_private_key).
Proof.
  assert (H : In (Call_puf_derive_key device_private_key 32)
                 (trace (boot_run 32 download_genome verify_byte1 3
                           (boot_entry zero_mem)))).
  { vm_compute. right. left. reflexivity. }
  assert (P : In device_private_key
                 (event_ptrs (Call_puf_derive_key device_private_key 32))).
  { left. reflexivity. }
  split; [exact H|]. split; [exact P|].
  apply (device_key_passed_only_to_derive 32 download_genome verify_byte1
           zero_mem 3 (Call_puf_derive_key device_private_key 32) H P).
Defined.
